(** * useAuth: the wallet session and signing hook of src/auth/hooks/useAuth.ts

    A shallow embedding of [useAuth].  The hook closes over one piece of
    in-memory state, the recoil atom [wallet], and talks to four external
    collaborators: the keystore (the spec's Vault Gateway), the LCD client
    (Chain Client), the Ledger device (Hardware Device Gateway) and the key
    classes of terra.js.  Every operation of the hook is a computation in a
    state-and-exception monad over

      - the session ([wallet], written only by [setWallet]),
      - the state of the collaborators ([world]), which only they change,
      - the list of collaborator calls made so far ([trace]).

    A JavaScript [throw] keeps the effects performed before it, so a failing
    computation still returns the state it reached.  [await] is sequencing:
    the hook never runs two of its operations at once.  Every operation is
    taken from a render that has observed the latest value of the atom. *)

From Stdlib Require Import String List Bool NArith.
Import ListNotations.
Open Scope string_scope.

Set Implicit Arguments.

(** ** Values *)

Definition AccAddress := string.
Definition Buffer := list Byte.byte.

(** The wallet descriptors that the hook builds: [{ name, address }],
    [{ name, address, multisig: true }] and [{ address, ledger: true }]. *)
Inductive Wallet : Type :=
| SingleWallet (name : string) (address : AccAddress)
| MultisigWallet (name : string) (address : AccAddress)
| LedgerWallet (address : AccAddress).

(** [const { address } = wallet] and [const { name } = wallet]; a Ledger
    descriptor has no [name]. *)
Definition address (w : Wallet) : AccAddress :=
  match w with
  | SingleWallet _ a | MultisigWallet _ a | LedgerWallet a => a
  end.

Definition name (w : Wallet) : option string :=
  match w with
  | SingleWallet n _ | MultisigWallet n _ => Some n
  | LedgerWallet _ => None
  end.

(** What [getStoredWallet] hands back, as far as [connect] reads it. *)
Record StoredWallet : Type := mkStoredWallet {
  stored_address : AccAddress;
  stored_multisig : bool
}.



(** Modelled from the spec: the predicates [is.local], [is.ledger] and
    [is.multisig] of ../scripts/is, which is not among the sources.  The spec
    makes the descriptor a closed tagged union Local | Multisig | Ledger; each
    predicate tests one tag, and an absent wallet has none. *)
Definition is_local (wallet : option Wallet) : bool :=
  match wallet with
  | Some (SingleWallet _ _) => true
  | _ => false
  end.

Definition is_ledger (wallet : option Wallet) : bool :=
  match wallet with
  | Some (LedgerWallet _) => true
  | _ => false
  end.

Definition is_multisig (storedWallet : StoredWallet) : bool :=
  stored_multisig storedWallet.

(** Thrown values: [new Error(message)] and the keystore's
    [new PasswordError(message)]. *)
Inductive exn : Type :=
| Error (message : string)
| PasswordError (message : string).

(** The names the spec gives to the errors this hook raises itself. *)
Definition SessionError : exn := Error "Wallet is not defined".
Definition IncorrectPasswordError : exn := PasswordError "Incorrect password".
Definition UnsupportedOperation : exn := Error "Ledger can not sign arbitrary data".
Definition DeviceError : exn := Error "Public key is not defined".
Definition InvariantViolation : exn := Error "Signature is undefined".

Inductive result (A : Type) : Type :=
| Ok (a : A)
| Throw (e : exn).
Arguments Throw {A} e.

(** [SignatureV2.SignMode] of terra.js. *)
Inductive SignMode : Type :=
| SIGN_MODE_UNSPECIFIED
| SIGN_MODE_DIRECT
| SIGN_MODE_TEXTUAL
| SIGN_MODE_LEGACY_AMINO_JSON.

(** The two key classes handed to the LCD client and asked for signatures:
    [new RawKey(Buffer.from(pk, "hex"))] and [new LedgerKey(publicKey)]. *)
Inductive Key : Type :=
| RawKey (privateKey : Buffer)
| LedgerKey (publicKey : string).

Record Params : Type := mkParams {
  params_name : option string;
  params_password : string
}.

Record Account : Type := mkAccount {
  getAccountNumber : N;
  getSequenceNumber : N
}.

Record SignOptions : Type := mkSignOptions {
  opt_chainID : string;
  opt_accountNumber : N;
  opt_sequence : N;
  opt_signMode : SignMode
}.

Record EcdsaSignature : Type := mkEcdsa {
  ecdsa_signature : option Buffer;
  ecdsa_recid : N
}.

Record SignedBytes : Type := mkSignedBytes {
  recid : N;
  signature : string;
  public_key : option string
}.

Record EncryptedWalletData : Type := mkData {
  data_name : option string;
  data_address : AccAddress;
  encrypted_key : string
}.

Record BroadcastResult : Type := mkBroadcastResult {
  txhash : string;
  code : option N;
  raw_log : string
}.

(** [!pk] on a value that is a string or undefined. *)
Definition falsy (pk : option string) : bool :=
  match pk with
  | None => true
  | Some s => match s with EmptyString => true | String _ _ => false end
  end.

(** ** Collaborators, state and the monad *)

Inductive Collaborator : Type :=
| VaultGateway
| ChainClient
| HardwareDevice
| KeyLibrary.

Section UseAuth.

(** terra.js payloads that the hook only passes along, and the state of
    the world outside the hook. *)
Context {AuthInfo TxBody CreateTxOptions SignatureV2 World : Type}.

Record Tx : Type := mkTx {
  auth_info : AuthInfo;
  body : TxBody;
  signatures : list string
}.

Record SignDoc : Type := mkSignDoc {
  doc_chain_id : string;
  doc_account_number : N;
  doc_sequence : N;
  doc_auth_info : AuthInfo;
  doc_tx_body : TxBody
}.

Record AccountNumberAndSequence : Type := mkNumberAndSequence {
  account_number : N;
  sequence : N
}.

(** A collaborator call reads and changes the outside world and returns
    or throws. *)
Definition ext (A : Type) : Type := World -> result A * World.

Record Collaborators : Type := mkCollaborators {
  (* ../scripts/keystore *)
  getWallet : World -> option Wallet;
  getStoredWallet : string -> ext StoredWallet;
  storeWallet : Wallet -> ext unit;
  clearWallet : ext unit;
  getDecryptedKey : Params -> ext (option string);
  testPassword : Params -> ext bool;
  (* ../scripts/encrypt *)
  encrypt : option string -> string -> ext string;
  (* ../ledger/ledger *)
  ledger_getPubKey : ext (option Buffer);
  (* terra.js Key: RawKey and ../ledger/LedgerKey *)
  createSignatureAmino : Key -> SignDoc -> ext SignatureV2;
  signTx : Key -> Tx -> SignOptions -> ext Tx;
  ecdsaSign : Key -> Buffer -> ext EcdsaSignature;
  publicKey_toAmino_value : Key -> option string;
  secp256k1_publicKeyCreate : Buffer -> result string;
  (* useLCDClient() *)
  lcd_config_chainID : string;
  lcd_tx_create : list AccAddress -> CreateTxOptions -> ext Tx;
  lcd_auth_accountInfo : AccAddress -> ext Account;
  lcd_wallet_accountNumberAndSequence : Key -> ext AccountNumberAndSequence;
  lcd_wallet_createAndSignTx : Key -> CreateTxOptions -> ext Tx;
  lcd_tx_broadcastSync : Tx -> ext BroadcastResult;
  (* useChainID() *)
  chainID : string;
  (* Buffer, JSON and js-base64 *)
  toString_base64 : Buffer -> string;
  Buffer_from_hex : string -> Buffer;
  JSON_stringify : EncryptedWalletData -> string;
  encode : string -> string
}.

(** One constructor per collaborator operation, with its arguments. *)
Inductive Call : Type :=
| GetStoredWallet (n : string)
| StoreWallet (w : Wallet)
| ClearWallet
| GetDecryptedKey (p : Params)
| TestPassword (p : Params)
| Encrypt (key : option string) (password : string)
| LedgerGetPubKey
| CreateSignatureAmino (key : Key) (doc : SignDoc)
| SignTx (key : Key) (unsignedTx : Tx) (options : SignOptions)
| EcdsaSign (key : Key) (bytes : Buffer)
| TxCreate (signers : list AccAddress) (txOptions : CreateTxOptions)
| AccountInfo (a : AccAddress)
| WalletAccountNumberAndSequence (key : Key)
| WalletCreateAndSignTx (key : Key) (txOptions : CreateTxOptions)
| BroadcastSync (signedTx : Tx).

Definition key_owner (key : Key) : Collaborator :=
  match key with
  | RawKey _ => KeyLibrary
  | LedgerKey _ => HardwareDevice
  end.

Definition callee (c : Call) : Collaborator :=
  match c with
  | GetStoredWallet _ | StoreWallet _ | ClearWallet
  | GetDecryptedKey _ | TestPassword _ | Encrypt _ _ => VaultGateway
  | LedgerGetPubKey => HardwareDevice
  | CreateSignatureAmino key _ | SignTx key _ _ | EcdsaSign key _ => key_owner key
  | TxCreate _ _ | AccountInfo _ | WalletAccountNumberAndSequence _
  | WalletCreateAndSignTx _ _ | BroadcastSync _ => ChainClient
  end.

Definition calls_to (who : Collaborator) (c : Call) : bool :=
  match who, callee c with
  | VaultGateway, VaultGateway | ChainClient, ChainClient
  | HardwareDevice, HardwareDevice | KeyLibrary, KeyLibrary => true
  | _, _ => false
  end.

Record State : Type := mkState {
  wallet : option Wallet;
  world : World;
  trace : list Call
}.

Definition M (A : Type) : Type := State -> result A * State.

Definition ret {A} (a : A) : M A := fun st => (Ok a, st).

Definition throw {A} (e : exn) : M A := fun st => (Throw e, st).

Definition bind {A B} (m : M A) (k : A -> M B) : M B :=
  fun st =>
    match m st with
    | (Ok a, st') => k a st'
    | (Throw e, st') => (Throw e, st')
    end.

(** [try { m } catch (error) { h error }] *)
Definition try_catch {A} (m : M A) (h : exn -> M A) : M A :=
  fun st =>
    match m st with
    | (Ok a, st') => (Ok a, st')
    | (Throw e, st') => h e st'
    end.

(** The value of the atom in this render, and its setter. *)
Definition readWallet : M (option Wallet) := fun st => (Ok (wallet st), st).

Definition setWallet (w : option Wallet) : M unit :=
  fun st => (Ok tt, {| wallet := w; world := world st; trace := trace st |}).

(** A collaborator call: it is recorded, and the world moves on whether it
    returns or throws. *)
Definition call {A} (c : Call) (f : ext A) : M A :=
  fun st =>
    let (r, w') := f (world st) in
    (r, {| wallet := wallet st; world := w'; trace := trace st ++ [c] |}).

Notation "x <- m ;; k" := (bind m (fun x => k))
  (at level 61, m at next level, right associativity).
Notation "m ;; k" := (bind m (fun _ => k))
  (at level 61, right associativity).

Variable E : Collaborators.

(** [default: getWallet()] of the atom. *)
Definition initial (w : World) : State :=
  {| wallet := getWallet E w; world := w; trace := [] |}.

(** ** connect | disconnect *)

Definition connect (n : string) : M unit :=
  storedWallet <- call (GetStoredWallet n) (getStoredWallet E n) ;;
  let a := stored_address storedWallet in
  let w := if is_multisig storedWallet
           then MultisigWallet n a
           else SingleWallet n a in
  call (StoreWallet w) (storeWallet E w) ;;
  setWallet (Some w).

Definition connectLedger (a : AccAddress) : M unit :=
  let w := LedgerWallet a in
  call (StoreWallet w) (storeWallet E w) ;;
  setWallet (Some w).

Definition disconnect : M unit :=
  call ClearWallet (clearWallet E) ;;
  setWallet None.

(** ** helpers *)

Definition connectedWallet (wallet : option Wallet) : option Wallet :=
  if negb (is_local wallet) then None else wallet.

Definition getConnectedWallet : M Wallet :=
  w <- readWallet ;;
  match connectedWallet w with
  | None => throw (Error "Wallet is not defined")
  | Some cw => ret cw
  end.

Definition getKey (password : string) : M (option string) :=
  cw <- getConnectedWallet ;;
  let p := {| params_name := name cw; params_password := password |} in
  call (GetDecryptedKey p) (getDecryptedKey E p).

Definition getLedgerKey : M Key :=
  pk <- call LedgerGetPubKey (ledger_getPubKey E) ;;
  match pk with
  | None => throw (Error "Public key is not defined")
  | Some pk => ret (LedgerKey (toString_base64 E pk))
  end.

(** ** manage: export *)

Definition encodeEncryptedWallet (password : string) : M string :=
  cw <- getConnectedWallet ;;
  key <- getKey password ;;
  c <- call (Encrypt key password) (encrypt E key password) ;;
  let data := {| data_name := name cw; data_address := address cw;
                 encrypted_key := c |} in
  ret (encode E (JSON_stringify E data)).

(** ** form *)

Definition validatePassword (password : string) : M (bool + string) :=
  try_catch
    (cw <- getConnectedWallet ;;
     let p := {| params_name := name cw; params_password := password |} in
     b <- call (TestPassword p) (testPassword E p) ;;
     ret (inl b))
    (fun _ => ret (inr "Incorrect password")).

(** ** tx *)

Definition create (txOptions : CreateTxOptions) : M Tx :=
  w <- readWallet ;;
  match w with
  | None => throw (Error "Wallet is not defined")
  | Some w =>
      let signers := [address w] in
      call (TxCreate signers txOptions) (lcd_tx_create E signers txOptions)
  end.

(** [if (!pk) throw new PasswordError(...)] and then
    [new RawKey(Buffer.from(pk, "hex"))].  The constructor of terra.js
    derives the public key from the bytes with secp256k1's publicKeyCreate,
    which throws when they are not a valid private key; what it throws
    leaves the hook as it is. *)
Definition rawKey (pk : option string) : M Key :=
  match pk with
  | Some (String c s) =>
      let privateKey := Buffer_from_hex E (String c s) in
      match secp256k1_publicKeyCreate E privateKey with
      | Ok _ => ret (RawKey privateKey)
      | Throw e => throw e
      end
  | _ => throw (PasswordError "Incorrect password")
  end.

Definition createSignature (tx : Tx) (a : AccAddress) (password : string)
  : M SignatureV2 :=
  w <- readWallet ;;
  match w with
  | None => throw (Error "Wallet is not defined")
  | Some _ =>
      accountInfo <- call (AccountInfo a) (lcd_auth_accountInfo E a) ;;
      let doc := {| doc_chain_id := lcd_config_chainID E;
                    doc_account_number := getAccountNumber accountInfo;
                    doc_sequence := getSequenceNumber accountInfo;
                    doc_auth_info := auth_info tx;
                    doc_tx_body := body tx |} in
      if is_ledger w then
        key <- getLedgerKey ;;
        call (CreateSignatureAmino key doc) (createSignatureAmino E key doc)
      else
        pk <- getKey password ;;
        key <- rawKey pk ;;
        call (CreateSignatureAmino key doc) (createSignatureAmino E key doc)
  end.

Definition sign (txOptions : CreateTxOptions) (password : string) : M Tx :=
  w <- readWallet ;;
  match w with
  | None => throw (Error "Wallet is not defined")
  | Some _ =>
      if is_ledger w then
        key <- getLedgerKey ;;
        ans <- call (WalletAccountNumberAndSequence key)
                    (lcd_wallet_accountNumberAndSequence E key) ;;
        let signMode := SIGN_MODE_LEGACY_AMINO_JSON in
        unsignedTx <- create txOptions ;;
        let options := {| opt_chainID := chainID E;
                          opt_accountNumber := account_number ans;
                          opt_sequence := sequence ans;
                          opt_signMode := signMode |} in
        call (SignTx key unsignedTx options) (signTx E key unsignedTx options)
      else
        pk <- getKey password ;;
        key <- rawKey pk ;;
        call (WalletCreateAndSignTx key txOptions)
             (lcd_wallet_createAndSignTx E key txOptions)
  end.

Definition signBytes (bytes : Buffer) (password : string) : M SignedBytes :=
  w <- readWallet ;;
  match w with
  | None => throw (Error "Wallet is not defined")
  | Some _ =>
      if is_ledger w then
        throw (Error "Ledger can not sign arbitrary data")
      else
        pk <- getKey password ;;
        key <- rawKey pk ;;
        sg <- call (EcdsaSign key bytes) (ecdsaSign E key bytes) ;;
        match ecdsa_signature sg with
        | None => throw (Error "Signature is undefined")
        | Some s =>
            ret {| recid := ecdsa_recid sg;
                   signature := toString_base64 E s;
                   public_key := publicKey_toAmino_value E key |}
        end
  end.

(** [isTxError] of terra.js: a code that is defined and not zero. *)
Definition isTxError (r : BroadcastResult) : bool :=
  match code r with
  | Some c => negb (N.eqb c 0)
  | None => false
  end.

Definition post (txOptions : CreateTxOptions) (password : string)
  : M BroadcastResult :=
  w <- readWallet ;;
  match w with
  | None => throw (Error "Wallet is not defined")
  | Some _ =>
      signedTx <- sign txOptions password ;;
      r <- call (BroadcastSync signedTx) (lcd_tx_broadcastSync E signedTx) ;;
      if isTxError r then throw (Error (raw_log r)) else ret r
  end.

(** ** Vocabulary of the properties *)

(** The collaborator calls that running [m] from [st] adds to the trace. *)
Definition calls_made {A} (m : M A) (st : State) : list Call :=
  skipn (length (trace st)) (trace (snd (m st))).

Definition no_call_to (who : Collaborator) (cs : list Call) : Prop :=
  filter (calls_to who) cs = [].

(** The three ways in which [validatePassword] can find no valid password:
    the keystore rejects it with its [PasswordError], no wallet is
    connected, or the keystore throws anything at all. *)
Inductive FailureMode : Type := WrongPassword | NoSession | GatewayError.

Definition fails_by (password : string) (st : State) (f : FailureMode) : Prop :=
  match f with
  | NoSession => wallet st = None
  | WrongPassword =>
      exists n a msg W,
        wallet st = Some (SingleWallet n a) /\
        testPassword E {| params_name := Some n; params_password := password |}
          (world st) = (Throw (PasswordError msg), W)
  | GatewayError =>
      exists n a e W,
        wallet st = Some (SingleWallet n a) /\
        testPassword E {| params_name := Some n; params_password := password |}
          (world st) = (Throw e, W)
  end.

End UseAuth.


(** ** A concrete set of collaborators

    The theorems below hold for every [Collaborators]; this instance lets the
    hook run, so that each hypothesis can be seen to hold on an actual run. *)

Module Sim.

Record StoredEntry : Type := mkEntry {
  entry_name : string;
  entry_address : AccAddress;
  entry_multisig : bool;
  entry_password : string;
  entry_key : string
}.

Record SimWorld : Type := mkWorld {
  persisted : option Wallet;
  storage_available : bool;
  entries : list StoredEntry;
  device : option Buffer;
  chain_sequence : N
}.

Definition lookup (n : string) (w : SimWorld) : option StoredEntry :=
  find (fun e => String.eqb (entry_name e) n) (entries w).

Definition persist (p : option Wallet) (w : SimWorld) : SimWorld :=
  {| persisted := p; storage_available := storage_available w;
     entries := entries w; device := device w;
     chain_sequence := chain_sequence w |}.

Definition confirm_tx (w : SimWorld) : SimWorld :=
  {| persisted := persisted w; storage_available := storage_available w;
     entries := entries w; device := device w;
     chain_sequence := N.succ (chain_sequence w) |}.

(** Modelled from the spec: the Vault Gateway contract of section 6,
    [load(name) -> descriptor | NotFoundError], [store(descriptor)],
    [clear()] and [decrypt(name, password)], which yields the key or nothing;
    the stored record can only be written while the storage is available. *)
Definition sim_getStoredWallet (n : string) (w : SimWorld)
  : result StoredWallet * SimWorld :=
  match lookup n w with
  | Some e => (Ok {| stored_address := entry_address e;
                     stored_multisig := entry_multisig e |}, w)
  | None => (Throw (Error "Wallet does not exist"), w)
  end.

Definition sim_storeWallet (d : Wallet) (w : SimWorld) : result unit * SimWorld :=
  if storage_available w then (Ok tt, persist (Some d) w)
  else (Throw (Error "Storage is not available"), w).

Definition sim_clearWallet (w : SimWorld) : result unit * SimWorld :=
  if storage_available w then (Ok tt, persist None w)
  else (Throw (Error "Storage is not available"), w).

Definition sim_getDecryptedKey (p : Params) (w : SimWorld)
  : result (option string) * SimWorld :=
  match params_name p with
  | None => (Throw (Error "Wallet does not exist"), w)
  | Some n =>
      match lookup n w with
      | None => (Throw (Error "Wallet does not exist"), w)
      | Some e =>
          if String.eqb (entry_password e) (params_password p)
          then (Ok (Some (entry_key e)), w)
          else (Ok None, w)
      end
  end.

Definition sim_testPassword (p : Params) (w : SimWorld) : result bool * SimWorld :=
  match sim_getDecryptedKey p w with
  | (Ok pk, w') =>
      if falsy pk then (Throw (PasswordError "Incorrect password"), w')
      else (Ok true, w')
  | (Throw e, w') => (Throw e, w')
  end.

Definition sim_encrypt (key : option string) (password : string) (w : SimWorld)
  : result string * SimWorld :=
  let k := match key with Some k => k | None => "undefined" end in
  (Ok ("enc(" ++ k ++ "," ++ password ++ ")"), w).

(** Modelled from the spec: the Hardware Device Gateway,
    [getPublicKey() -> bytes | none], and a signer that stamps the document
    it was given. *)
Definition sim_getPubKey (w : SimWorld) : result (option Buffer) * SimWorld :=
  (Ok (device w), w).

Definition show_mode (m : SignMode) : string :=
  match m with
  | SIGN_MODE_UNSPECIFIED => "unspecified"
  | SIGN_MODE_DIRECT => "direct"
  | SIGN_MODE_TEXTUAL => "textual"
  | SIGN_MODE_LEGACY_AMINO_JSON => "legacy-amino-json"
  end.

(** [Buffer.from(s, "hex")] and [buffer.toString("hex")] of Node: two hex
    digits make a byte, and decoding stops at the first pair that is not
    hex. *)
Definition hex_value (a : Ascii.ascii) : option N :=
  let n := Ascii.N_of_ascii a in
  if (N.leb 48 n && N.leb n 57)%bool then Some (n - 48)%N
  else if (N.leb 97 n && N.leb n 102)%bool then Some (n - 87)%N
  else if (N.leb 65 n && N.leb n 70)%bool then Some (n - 55)%N
  else None.

Fixpoint from_hex (s : string) : Buffer :=
  match s with
  | String a (String b rest) =>
      match hex_value a, hex_value b with
      | Some h, Some l =>
          match Byte.of_N (16 * h + l) with
          | Some x => cons x (from_hex rest)
          | None => nil
          end
      | _, _ => nil
      end
  | _ => nil
  end.

Definition hex_digit (d : N) : Ascii.ascii :=
  Ascii.ascii_of_N (if N.ltb d 10 then 48 + d else 87 + d).

Fixpoint to_hex (b : Buffer) : string :=
  match b with
  | nil => EmptyString
  | cons x rest =>
      String (hex_digit (N.div (Byte.to_N x) 16))
        (String (hex_digit (N.modulo (Byte.to_N x) 16)) (to_hex rest))
  end.

(** A stand-in for secp256k1's publicKeyCreate: it refuses every buffer that
    is not 32 bytes long, as the library does, and takes any other for a
    private key. *)
Definition sim_publicKeyCreate (privateKey : Buffer) : result string :=
  if Nat.eqb (length privateKey) 32 then Ok ("pub(" ++ to_hex privateKey ++ ")")
  else Throw (Error "Expected private key to be an Uint8Array with length 32").

Definition show_key (key : Key) : string :=
  match key with
  | RawKey b => "raw:" ++ to_hex b
  | LedgerKey p => "ledger:" ++ p
  end.

Definition sim_createSignatureAmino (key : Key)
  (doc : @SignDoc string string) (w : SimWorld) : result string * SimWorld :=
  (Ok ("amino(" ++ show_key key ++ ")"), w).

Definition sim_signTx (key : Key) (tx : @Tx string string)
  (options : SignOptions) (w : SimWorld) : result (@Tx string string) * SimWorld :=
  (Ok {| auth_info := auth_info tx; body := body tx;
         signatures := [show_mode (opt_signMode options) ++ "(" ++ show_key key ++ ")"] |},
   w).

Definition sim_ecdsaSign (key : Key) (bytes : Buffer) (w : SimWorld)
  : result EcdsaSignature * SimWorld :=
  (Ok {| ecdsa_signature := Some bytes; ecdsa_recid := 0 |}, w).

(** Modelled from the spec: the Chain Client, whose sequence number advances
    with each transaction it accepts. *)
Definition sim_tx_create (signers : list AccAddress) (txOptions : string)
  (w : SimWorld) : result (@Tx string string) * SimWorld :=
  (Ok {| auth_info := String.concat "," signers; body := txOptions; signatures := [] |}, w).

Definition sim_accountInfo (a : AccAddress) (w : SimWorld)
  : result Account * SimWorld :=
  (Ok {| getAccountNumber := 7; getSequenceNumber := chain_sequence w |}, w).

Definition sim_accountNumberAndSequence (key : Key) (w : SimWorld)
  : result AccountNumberAndSequence * SimWorld :=
  (Ok {| account_number := 7; sequence := chain_sequence w |}, w).

Definition sim_createAndSignTx (key : Key) (txOptions : string) (w : SimWorld)
  : result (@Tx string string) * SimWorld :=
  (Ok {| auth_info := "direct"; body := txOptions;
         signatures := ["direct(" ++ show_key key ++ ")"] |}, w).

Definition sim_broadcastSync (signedTx : @Tx string string) (w : SimWorld)
  : result BroadcastResult * SimWorld :=
  (Ok {| txhash := "hash"; code := None; raw_log := "" |}, confirm_tx w).

Definition sim_stringify (d : EncryptedWalletData) : string :=
  "{" ++ match data_name d with Some n => n | None => "undefined" end
      ++ "," ++ data_address d ++ "," ++ encrypted_key d ++ "}".

Definition env : @Collaborators string string string string SimWorld :=
  {| getWallet := persisted;
     getStoredWallet := sim_getStoredWallet;
     storeWallet := sim_storeWallet;
     clearWallet := sim_clearWallet;
     getDecryptedKey := sim_getDecryptedKey;
     testPassword := sim_testPassword;
     encrypt := sim_encrypt;
     ledger_getPubKey := sim_getPubKey;
     createSignatureAmino := sim_createSignatureAmino;
     signTx := sim_signTx;
     ecdsaSign := sim_ecdsaSign;
     publicKey_toAmino_value := fun key => Some (show_key key);
     secp256k1_publicKeyCreate := sim_publicKeyCreate;
     lcd_config_chainID := "columbus-5";
     lcd_tx_create := sim_tx_create;
     lcd_auth_accountInfo := sim_accountInfo;
     lcd_wallet_accountNumberAndSequence := sim_accountNumberAndSequence;
     lcd_wallet_createAndSignTx := sim_createAndSignTx;
     lcd_tx_broadcastSync := sim_broadcastSync;
     chainID := "columbus-5";
     toString_base64 := string_of_list_byte;
     Buffer_from_hex := from_hex;
     JSON_stringify := sim_stringify;
     encode := fun s => "base64:" ++ s |}.

(** The scenario of the spec: one stored wallet, alice at addr1 under pw1. *)
Definition alice : StoredEntry :=
  {| entry_name := "alice"; entry_address := "addr1"; entry_multisig := false;
     entry_password := "pw1";
     entry_key := "a11ce00000000000000000000000000000000000000000000000000000000001" |}.

Definition team : StoredEntry :=
  {| entry_name := "team"; entry_address := "addr3"; entry_multisig := true;
     entry_password := "pw3"; entry_key := "7ea3" |}.

(** A stored wallet whose decrypted key is too short to be a private key. *)
Definition dave : StoredEntry :=
  {| entry_name := "dave"; entry_address := "addr5"; entry_multisig := false;
     entry_password := "pw5"; entry_key := "beef" |}.

Definition world0 : SimWorld :=
  {| persisted := None; storage_available := true;
     entries := [alice; team; dave];
     device := Some (list_byte_of_string "pub"); chain_sequence := 3 |}.

(** The same world once the storage has stopped accepting writes. *)
Definition storage_down (w : SimWorld) : SimWorld :=
  {| persisted := persisted w; storage_available := false;
     entries := entries w; device := device w;
     chain_sequence := chain_sequence w |}.

(** The hook as the application starts, with nothing persisted; then the
    sessions reached from there by connect("alice") and by
    connectLedger("addr2"). *)
Definition st_none : @State string string string SimWorld := initial env world0.
Definition st_alice : State := snd (connect env "alice" st_none).
Definition st_ledger : State := snd (connectLedger env "addr2" st_none).
Definition st_dave : State := snd (connect env "dave" st_none).

(** alice connected, and the storage refusing writes from then on. *)
Definition st_alice_offline : State :=
  {| wallet := wallet st_alice; world := storage_down (world st_alice);
     trace := trace st_alice |}.

(** The hook started over a persisted record whose wallet the keystore no
    longer holds. *)
Definition st_bob : State :=
  initial env (persist (Some (SingleWallet "bob" "addr4")) world0).

(** alice after one accepted transaction: the chain's sequence has moved. *)
Definition st_alice_later : State := snd (post env "send" "pw1" st_alice).
Definition st_ledger_later : State := snd (post env "send" "" st_ledger).

Definition tx0 : @Tx string string :=
  {| auth_info := "auth"; body := "send"; signatures := [] |}.

(** A Ledger session whose device hands out no public key. *)
Definition st_ledger_unplugged : State :=
  {| wallet := wallet st_ledger;
     world := {| persisted := persisted (world st_ledger);
                 storage_available := true;
                 entries := entries (world st_ledger);
                 device := None;
                 chain_sequence := chain_sequence (world st_ledger) |};
     trace := trace st_ledger |}.

(** Modelled from the spec: a Chain Client that cannot look accounts up and
    rejects what it is sent, [broadcastSync(signedTx) -> Result{code, rawLog}]
    with a code that is not zero. *)
Definition sim_accountInfo_down (a : AccAddress) (w : SimWorld)
  : result Account * SimWorld :=
  (Throw (Error "Network Error"), w).

Definition sim_broadcastSync_rejecting (signedTx : @Tx string string)
  (w : SimWorld) : result BroadcastResult * SimWorld :=
  (Ok {| txhash := "hash"; code := Some 5%N; raw_log := "insufficient funds" |}, w).

Definition env_faulty : @Collaborators string string string string SimWorld :=
  {| getWallet := getWallet env;
     getStoredWallet := getStoredWallet env;
     storeWallet := storeWallet env;
     clearWallet := clearWallet env;
     getDecryptedKey := getDecryptedKey env;
     testPassword := testPassword env;
     encrypt := encrypt env;
     ledger_getPubKey := ledger_getPubKey env;
     createSignatureAmino := createSignatureAmino env;
     signTx := signTx env;
     ecdsaSign := ecdsaSign env;
     publicKey_toAmino_value := publicKey_toAmino_value env;
     secp256k1_publicKeyCreate := secp256k1_publicKeyCreate env;
     lcd_config_chainID := lcd_config_chainID env;
     lcd_tx_create := lcd_tx_create env;
     lcd_auth_accountInfo := sim_accountInfo_down;
     lcd_wallet_accountNumberAndSequence := lcd_wallet_accountNumberAndSequence env;
     lcd_wallet_createAndSignTx := lcd_wallet_createAndSignTx env;
     lcd_tx_broadcastSync := sim_broadcastSync_rejecting;
     chainID := chainID env;
     toString_base64 := toString_base64 env;
     Buffer_from_hex := Buffer_from_hex env;
     JSON_stringify := JSON_stringify env;
     encode := encode env |}.

End Sim.


(** ** Properties of the hook *)

Unset Implicit Arguments.

Section UseAuthFacts.

Context {AuthInfo TxBody CreateTxOptions SignatureV2 World : Type}.
Variable E : @Collaborators AuthInfo TxBody CreateTxOptions SignatureV2 World.

Local Open Scope list_scope.

Local Abbreviation State := (@State AuthInfo TxBody CreateTxOptions World).
Local Abbreviation Call := (@Call AuthInfo TxBody CreateTxOptions).

Lemma skipn_length_app (A : Type) (l r : list A) :
  skipn (length l) (l ++ r) = r.
Proof. induction l as [|x l IH]; simpl; auto. Qed.

Lemma skipn_length_self (A : Type) (l : list A) : skipn (length l) l = [].
Proof. induction l as [|x l IH]; simpl; auto. Qed.

Lemma calls_made_app (A : Type) (m : M A) (st : State) (cs : list Call) :
  trace (snd (m st)) = trace st ++ cs -> calls_made m st = cs.
Proof. unfold calls_made. intros ->. apply skipn_length_app. Qed.

Lemma calls_made_nil (A : Type) (m : M A) (st : State) :
  trace (snd (m st)) = trace st -> calls_made m st = [].
Proof. unfold calls_made. intros ->. apply skipn_length_self. Qed.

Lemma rawKey_falsy (pk : option string) (st : State) :
  falsy pk = true ->
  rawKey E pk st = (Throw (PasswordError "Incorrect password"), st).
Proof. destruct pk as [[|c s]|]; simpl; intros H; try discriminate; reflexivity. Qed.

Lemma rawKey_truthy (pk : option string) (st : State) :
  falsy pk = false ->
  exists s,
    pk = Some s /\
    rawKey E pk st =
      (match secp256k1_publicKeyCreate E (Buffer_from_hex E s) with
       | Ok _ => Ok (RawKey (Buffer_from_hex E s))
       | Throw e => Throw e
       end, st).
Proof.
  destruct pk as [[|c s]|]; simpl; intros H; try discriminate.
  exists (String c s). split; [reflexivity|].
  destruct (secp256k1_publicKeyCreate E (Buffer_from_hex E (String c s)));
    reflexivity.
Qed.

(** Unfold the monad and the helpers of the hook. *)
Ltac unfold_hook :=
  unfold post, sign, signBytes, createSignature, create, validatePassword,
    encodeEncryptedWallet, getLedgerKey, getKey, getConnectedWallet,
    connectedWallet, disconnect, connectLedger, connect,
    try_catch, bind, call, setWallet, readWallet, throw, ret in *.

(** Split on the outcome of the next collaborator call. *)
Ltac next_call :=
  match goal with
  | |- context [let (_, _) := ?f (world ?st) in _] =>
      let r := fresh "r" in
      let W := fresh "W" in
      let Hc := fresh "Hcall" in
      destruct (f (world st)) as [r W] eqn:Hc; destruct r; simpl
  | |- context [let (_, _) := ?f ?w in _] =>
      let r := fresh "r" in
      let W := fresh "W" in
      let Hc := fresh "Hcall" in
      destruct (f w) as [r W] eqn:Hc; destruct r; simpl
  end.

(** Normalise a trace [((t ++ [a]) ++ [b]) ++ ...] to [t ++ [a; b; ...]]. *)
Ltac flat_trace := repeat (rewrite <- app_assoc; simpl).

(** *** The session *)


(** With [is.local] as modelled, a Multisig session is refused as well. *)
Lemma getConnectedWallet_multisig (st : State) (n : string) (a : AccAddress) :
  wallet st = Some (MultisigWallet n a) ->
  getConnectedWallet st = (Throw SessionError, st).
Proof. unfold_hook. intros ->. reflexivity. Qed.

(** C3 (as amended): disconnect() clears the in-memory session whenever the
    external clear of the persisted reference returns; when that clear
    throws, disconnect() fails with the same error and the in-memory session
    is left as it was. *)
Theorem disconnect_clears_when_clear_returns (st : State) :
  (forall W, clearWallet E (world st) = (Ok tt, W) ->
     disconnect E st =
       (Ok tt, {| wallet := None; world := W;
                  trace := trace st ++ [ClearWallet] |})) /\
  (forall e W, clearWallet E (world st) = (Throw e, W) ->
     disconnect E st =
       (Throw e, {| wallet := wallet st; world := W;
                    trace := trace st ++ [ClearWallet] |})).
Proof.
  unfold_hook. split; intros; rewrite H; reflexivity.
Qed.

(** C10: connect(name) and connectLedger(address) never look at the current
    session: from every session, also one that already holds a wallet, and
    with no disconnect() in between, whenever the keystore calls return they
    end without error, having handed the new descriptor to storeWallet and
    put it in the in-memory session in place of whatever was there. *)
Theorem connect_last_wins (st : State) :
  (forall n sw W1 W2,
     getStoredWallet E n (world st) = (Ok sw, W1) ->
     let w := if is_multisig sw then MultisigWallet n (stored_address sw)
              else SingleWallet n (stored_address sw) in
     storeWallet E w W1 = (Ok tt, W2) ->
     connect E n st =
       (Ok tt, {| wallet := Some w; world := W2;
                  trace := trace st ++ [GetStoredWallet n; StoreWallet w] |})) /\
  (forall a W,
     storeWallet E (LedgerWallet a) (world st) = (Ok tt, W) ->
     connectLedger E a st =
       (Ok tt, {| wallet := Some (LedgerWallet a); world := W;
                  trace := trace st ++ [StoreWallet (LedgerWallet a)] |})).
Proof.
  unfold_hook. simpl. split.
  - intros n sw W1 W2 H1 H2. rewrite H1. simpl. rewrite H2. simpl.
    flat_trace. reflexivity.
  - intros a W H. rewrite H. reflexivity.
Qed.

(** What connect() and connectLedger() return, and what they do to the
    outside world, is the same from every session. *)
Lemma connect_ignores_session (st : State) (old : option Wallet) (n : string) :
  let st_old := {| wallet := old; world := world st; trace := trace st |} in
  fst (connect E n st_old) = fst (connect E n st) /\
  world (snd (connect E n st_old)) = world (snd (connect E n st)) /\
  trace (snd (connect E n st_old)) = trace (snd (connect E n st)).
Proof.
  unfold_hook. simpl. repeat (next_call; try (repeat split; reflexivity)).
Qed.

Lemma connectLedger_ignores_session (st : State) (old : option Wallet) (a : AccAddress) :
  let st_old := {| wallet := old; world := world st; trace := trace st |} in
  fst (connectLedger E a st_old) = fst (connectLedger E a st) /\
  world (snd (connectLedger E a st_old)) = world (snd (connectLedger E a st)) /\
  trace (snd (connectLedger E a st_old)) = trace (snd (connectLedger E a st)).
Proof.
  unfold_hook. simpl. repeat (next_call; try (repeat split; reflexivity)).
Qed.

(** *** Operations that need a session *)

(** C4: after connectLedger(address) has returned, signBytes(bytes, password)
    fails with UnsupportedOperation for every input, leaves the state as it
    was and calls no collaborator, so the Vault Gateway is not touched. *)
Theorem connectLedger_signBytes_unsupported
  (a : AccAddress) (bytes : Buffer) (password : string) (st st' : State) :
  connectLedger E a st = (Ok tt, st') ->
  signBytes E bytes password st' = (Throw UnsupportedOperation, st') /\
  calls_made (signBytes E bytes password) st' = [] /\
  no_call_to VaultGateway (calls_made (signBytes E bytes password) st').
Proof.
  intros Hc.
  assert (Hw : wallet st' = Some (LedgerWallet a)).
  { revert Hc. unfold_hook. next_call; intros Hc; inversion Hc; reflexivity. }
  assert (Hs : signBytes E bytes password st' = (Throw UnsupportedOperation, st')).
  { unfold_hook. rewrite Hw. reflexivity. }
  assert (Hn : calls_made (signBytes E bytes password) st' = []).
  { apply calls_made_nil. rewrite Hs. reflexivity. }
  repeat split; auto. unfold no_call_to. rewrite Hn. reflexivity.
Qed.

(** C5: in a session that holds a Local wallet, when the Vault Gateway
    yields no key for the password, sign(txOptions, password) fails with
    IncorrectPasswordError; the one collaborator call it has made is that
    decryption, so no Chain Client call (account lookup, transaction
    construction, broadcast) has happened and the session is unchanged. *)
Theorem sign_incorrect_password_fail_fast
  (st : State) (n : string) (a : AccAddress)
  (txOptions : CreateTxOptions) (password : string)
  (pk : option string) (W : World) :
  let p := {| params_name := Some n; params_password := password |} in
  wallet st = Some (SingleWallet n a) ->
  getDecryptedKey E p (world st) = (Ok pk, W) ->
  falsy pk = true ->
  sign E txOptions password st =
    (Throw IncorrectPasswordError,
     {| wallet := wallet st; world := W;
        trace := trace st ++ [GetDecryptedKey p] |}) /\
  calls_made (sign E txOptions password) st = [GetDecryptedKey p] /\
  no_call_to ChainClient (calls_made (sign E txOptions password) st).
Proof.
  intros p Hw Hk Hf.
  assert (Hs : sign E txOptions password st =
    (Throw IncorrectPasswordError,
     {| wallet := wallet st; world := W;
        trace := trace st ++ [GetDecryptedKey p] |})).
  { subst p. unfold_hook. simpl. repeat (rewrite Hw; simpl).
    rewrite Hk. simpl. rewrite rawKey_falsy by assumption.
    reflexivity. }
  assert (Hn : calls_made (sign E txOptions password) st = [GetDecryptedKey p]).
  { apply calls_made_app. rewrite Hs. reflexivity. }
  repeat split; auto. unfold no_call_to. rewrite Hn. reflexivity.
Qed.

(** When the keystore throws instead, sign() fails with what it threw, at
    the same point. *)
Lemma sign_keystore_throws
  (st : State) (n : string) (a : AccAddress)
  (txOptions : CreateTxOptions) (password : string) (e : exn) (W : World) :
  let p := {| params_name := Some n; params_password := password |} in
  wallet st = Some (SingleWallet n a) ->
  getDecryptedKey E p (world st) = (Throw e, W) ->
  sign E txOptions password st =
    (Throw e, {| wallet := wallet st; world := W;
                 trace := trace st ++ [GetDecryptedKey p] |}).
Proof.
  intros p Hw Hk. subst p. unfold_hook. simpl. repeat (rewrite Hw; simpl).
  rewrite Hk. reflexivity.
Qed.

(** C6: once disconnect() has returned, create, createSignature, sign,
    signBytes and post each fail with SessionError, whatever their arguments
    and whatever wallet the session held before; none of them changes the
    state or reaches a collaborator. *)
Theorem after_disconnect_session_error (st st' : State) :
  disconnect E st = (Ok tt, st') ->
  (forall txOptions, create E txOptions st' = (Throw SessionError, st')) /\
  (forall tx a password,
     createSignature E tx a password st' = (Throw SessionError, st')) /\
  (forall txOptions password,
     sign E txOptions password st' = (Throw SessionError, st')) /\
  (forall bytes password,
     signBytes E bytes password st' = (Throw SessionError, st')) /\
  (forall txOptions password,
     post E txOptions password st' = (Throw SessionError, st')).
Proof.
  intros Hd.
  assert (Hw : wallet st' = None).
  { revert Hd. unfold_hook. next_call; intros Hd; inversion Hd; reflexivity. }
  unfold_hook. rewrite Hw. repeat split.
Qed.

(** C7: validatePassword(password) always returns, and in each failure mode
    (the keystore rejects the password, no wallet is connected, the keystore
    throws any error) what it returns is the one string
    "Incorrect password". *)
Theorem validatePassword_one_outcome (password : string) (st : State) :
  (exists v st', validatePassword E password st = (Ok v, st')) /\
  (forall f, fails_by E password st f ->
             fst (validatePassword E password st) = Ok (inr "Incorrect password")).
Proof.
  split.
  - unfold_hook. destruct (wallet st) as [[n a|n a|a]|]; simpl;
      try (eexists; eexists; reflexivity).
    next_call; eexists; eexists; reflexivity.
  - intros f Hf. unfold_hook. destruct f; simpl in Hf.
    + destruct Hf as (n & a & msg & W & Hw & Ht). rewrite Hw. simpl.
      rewrite Ht. reflexivity.
    + rewrite Hf. reflexivity.
    + destruct Hf as (n & a & e & W & Hw & Ht). rewrite Hw. simpl.
      rewrite Ht. reflexivity.
Qed.

(** The only other outcome is what [testPassword] itself returned. *)
Lemma validatePassword_tested (password : string) (st : State) (b : bool) (st' : State) :
  validatePassword E password st = (Ok (inl b), st') ->
  exists n a,
    wallet st = Some (SingleWallet n a) /\
    fst (testPassword E {| params_name := Some n; params_password := password |}
           (world st)) = Ok b.
Proof.
  unfold_hook. simpl.
  destruct (wallet st) as [[n a|n a|a]|] eqn:Hw; simpl;
    try (intros H; discriminate H).
  next_call; intros H; inversion H; subst.
  exists n, a. split; [reflexivity | rewrite Hcall; reflexivity].
Qed.

(** *** Signing *)

Ltac run_calls :=
  unfold calls_made; unfold_hook; unfold rawKey, throw, ret; simpl.

(** One step of a run: decide a value the code branches on, or split on the
    outcome of the next collaborator call. *)
Ltac next_step :=
  match goal with
  | |- context [match ?x with Some _ => _ | None => _ end] =>
      is_var x; destruct x; simpl
  | |- context [match ?x with EmptyString => _ | String _ _ => _ end] =>
      is_var x; destruct x; simpl
  | |- context [match ?x with Ok _ => _ | Throw _ => _ end] =>
      let Hc := fresh "Hkey" in
      destruct x eqn:Hc; simpl
  | |- context [let (_, _) := ?f ?w in _] =>
      let r := fresh "r" in
      let W := fresh "W" in
      let Hc := fresh "Hcall" in
      destruct (f w) as [r W] eqn:Hc; destruct r; simpl
  end.

Ltac settle_calls :=
  simpl; flat_trace;
  try rewrite skipn_length_app; try rewrite skipn_length_self; simpl.

Ltac all_runs Hw :=
  run_calls; repeat (rewrite Hw; simpl); repeat next_step; settle_calls.

Ltac pick_call :=
  repeat match goal with
         | H : _ \/ _ |- _ => destruct H
         | H : False |- _ => destruct H
         | H : _ = _ |- _ => discriminate H
         | H : @eq Call _ _ |- _ => inversion H; clear H; subst
         end.

(** C8: in a Ledger session every signTx request that sign() makes goes to
    the device key with the legacy amino-JSON sign mode, sign() never takes
    the LCD wallet's createAndSignTx path, and a transaction it returns is
    what the device returned for such a request; createSignature() asks the
    device key for an amino signature.  In a Local session sign() makes no
    signTx request and what it returns comes from createAndSignTx on the
    software key. *)
Theorem ledger_signing_is_legacy_amino
  (st : State) (txOptions : CreateTxOptions) (password : string)
  (tx : Tx) (acc : AccAddress) :
  (forall a, wallet st = Some (LedgerWallet a) ->
     (forall key utx o,
        In (SignTx key utx o) (calls_made (sign E txOptions password) st) ->
        opt_signMode o = SIGN_MODE_LEGACY_AMINO_JSON /\
        key_owner key = HardwareDevice) /\
     (forall key o,
        ~ In (WalletCreateAndSignTx key o)
             (calls_made (sign E txOptions password) st)) /\
     (forall signed,
        fst (sign E txOptions password st) = Ok signed ->
        exists key utx o W W',
          In (SignTx key utx o) (calls_made (sign E txOptions password) st) /\
          signTx E key utx o W = (Ok signed, W'))) /\
  (forall a, wallet st = Some (LedgerWallet a) ->
     (forall key doc,
        In (CreateSignatureAmino key doc)
           (calls_made (createSignature E tx acc password) st) ->
        key_owner key = HardwareDevice) /\
     (forall sg,
        fst (createSignature E tx acc password st) = Ok sg ->
        exists key doc W W',
          In (CreateSignatureAmino key doc)
             (calls_made (createSignature E tx acc password) st) /\
          createSignatureAmino E key doc W = (Ok sg, W'))) /\
  (forall n a, wallet st = Some (SingleWallet n a) ->
     (forall key utx o,
        ~ In (SignTx key utx o) (calls_made (sign E txOptions password) st)) /\
     (forall signed,
        fst (sign E txOptions password st) = Ok signed ->
        exists key W W',
          In (WalletCreateAndSignTx key txOptions)
             (calls_made (sign E txOptions password) st) /\
          key_owner key = KeyLibrary /\
          lcd_wallet_createAndSignTx E key txOptions W = (Ok signed, W'))).
Proof.
  split; [|split].
  - intros a Hw. split; [|split].
    + all_runs Hw; intros key utx o H; pick_call; simpl; auto.
    + all_runs Hw; intros key o H; pick_call.
    + all_runs Hw; intros signed H; try discriminate H.
      inversion H; subst. do 5 eexists. split; [|eassumption].
      do 3 right; left; reflexivity.
  - intros a Hw. split.
    + all_runs Hw; intros key doc H; pick_call; simpl; auto.
    + all_runs Hw; intros sg H; try discriminate H.
      inversion H; subst. do 4 eexists. split; [|eassumption].
      do 2 right; left; reflexivity.
  - intros n a Hw. split.
    + all_runs Hw; intros key utx o H; pick_call.
    + all_runs Hw; intros signed H; try discriminate H.
      inversion H; subst. do 3 eexists. split; [|split; [|eassumption]].
      * right; left; reflexivity.
      * reflexivity.
Qed.

(** The software path of createSignature() asks for an amino signature too,
    from the key library. *)
Lemma createSignature_local_amino
  (st : State) (tx : Tx) (acc : AccAddress) (password : string)
  (n : string) (a : AccAddress) (sg : SignatureV2) :
  wallet st = Some (SingleWallet n a) ->
  fst (createSignature E tx acc password st) = Ok sg ->
  exists key doc,
    In (CreateSignatureAmino key doc)
       (calls_made (createSignature E tx acc password) st) /\
    key_owner key = KeyLibrary.
Proof.
  intros Hw. all_runs Hw; intros H; try discriminate H.
  do 2 eexists. split; [do 2 right; left; reflexivity | reflexivity].
Qed.

(** C9: whenever a wallet is connected, createSignature() starts with an
    account lookup for the given address; every document it then hands to a
    key carries the account number and sequence which that lookup returned,
    and a signature it returns is the signature of such a document.  In a
    Ledger session whose device has a public key, sign() asks the Chain
    Client for account number and sequence right after the device key; every
    request it hands to the device carries the values returned, and a
    transaction it returns was signed under them.  Both hold from every
    state, so nothing is kept from one call to the next. *)
Theorem signing_fetches_account_each_call (st : State) (password : string) :
  (forall w tx acc, wallet st = Some w ->
     (exists rest,
        calls_made (createSignature E tx acc password) st = AccountInfo acc :: rest) /\
     (forall ai W, lcd_auth_accountInfo E acc (world st) = (Ok ai, W) ->
        (forall key doc,
           In (CreateSignatureAmino key doc)
              (calls_made (createSignature E tx acc password) st) ->
           doc_account_number doc = getAccountNumber ai /\
           doc_sequence doc = getSequenceNumber ai) /\
        (forall sg,
           fst (createSignature E tx acc password st) = Ok sg ->
           exists key W1 W2,
             createSignatureAmino E key
               {| doc_chain_id := lcd_config_chainID E;
                  doc_account_number := getAccountNumber ai;
                  doc_sequence := getSequenceNumber ai;
                  doc_auth_info := auth_info tx;
                  doc_tx_body := body tx |} W1 = (Ok sg, W2)))) /\
  (forall a txOptions b W, wallet st = Some (LedgerWallet a) ->
     ledger_getPubKey E (world st) = (Ok (Some b), W) ->
     let key := LedgerKey (toString_base64 E b) in
     (exists rest,
        calls_made (sign E txOptions password) st =
          LedgerGetPubKey :: WalletAccountNumberAndSequence key :: rest) /\
     (forall ans W', lcd_wallet_accountNumberAndSequence E key W = (Ok ans, W') ->
        (forall k utx o,
           In (SignTx k utx o) (calls_made (sign E txOptions password) st) ->
           opt_accountNumber o = account_number ans /\
           opt_sequence o = sequence ans) /\
        (forall signed,
           fst (sign E txOptions password st) = Ok signed ->
           exists utx W1 W2,
             signTx E key utx
               {| opt_chainID := chainID E;
                  opt_accountNumber := account_number ans;
                  opt_sequence := sequence ans;
                  opt_signMode := SIGN_MODE_LEGACY_AMINO_JSON |} W1
             = (Ok signed, W2)))).
Proof.
  split.
  - intros w tx acc Hw. split.
    + destruct w; all_runs Hw; eexists; reflexivity.
    + intros ai W Hai. split.
      * destruct w; run_calls; repeat (rewrite Hw; simpl); rewrite Hai; simpl;
          repeat next_step; settle_calls; intros key doc H; pick_call;
          simpl; auto.
      * destruct w; run_calls; repeat (rewrite Hw; simpl); rewrite Hai; simpl;
          repeat next_step; settle_calls; intros sg H; try discriminate H;
          inversion H; subst; do 3 eexists; eassumption.
  - intros a txOptions b W Hw Hpk key. split.
    + run_calls. repeat (rewrite Hw; simpl). rewrite Hpk. simpl.
      repeat next_step; settle_calls; eexists; reflexivity.
    + intros ans W' Hans. split.
      * run_calls. repeat (rewrite Hw; simpl). rewrite Hpk. simpl.
        subst key. rewrite Hans. simpl.
        repeat next_step; settle_calls; intros k utx o H; pick_call;
          simpl; auto.
      * run_calls. repeat (rewrite Hw; simpl). rewrite Hpk. simpl.
        subst key. rewrite Hans. simpl.
        repeat next_step; settle_calls; intros signed H; try discriminate H;
          inversion H; subst; do 3 eexists; eassumption.
Qed.

(** *** Export *)

(** When the keystore returns no key, encodeEncryptedWallet() goes on to
    encrypt that absent key and returns the bundle. *)
Lemma encodeEncryptedWallet_no_key
  (st : State) (n : string) (a : AccAddress) (password : string)
  (pk : option string) (W1 W2 : World) (c : string) :
  let p := {| params_name := Some n; params_password := password |} in
  wallet st = Some (SingleWallet n a) ->
  getDecryptedKey E p (world st) = (Ok pk, W1) ->
  encrypt E pk password W1 = (Ok c, W2) ->
  encodeEncryptedWallet E password st =
    (Ok (encode E (JSON_stringify E
           {| data_name := Some n; data_address := a; encrypted_key := c |})),
     {| wallet := wallet st; world := W2;
        trace := trace st ++ [GetDecryptedKey p; Encrypt pk password] |}).
Proof.
  intros p Hw Hk He. subst p. unfold_hook. simpl. repeat (rewrite Hw; simpl).
  rewrite Hk. simpl. rewrite He. simpl. flat_trace. reflexivity.
Qed.

(** *** Further properties: failures of connect *)

Ltac decide_ifs :=
  repeat match goal with
         | |- context [if ?b then _ else _] => destruct b; simpl
         | |- context [match ?x with Some _ => _ | None => _ end] =>
             destruct x; simpl
         end.

(** X1: when the lookup of the stored wallet throws, connect(name) fails
    with that error at once: storeWallet is not called and the session is
    the one it started from. *)
Theorem connect_unknown_wallet
  (st : State) (n : string) (e : exn) (W : World) :
  getStoredWallet E n (world st) = (Throw e, W) ->
  connect E n st =
    (Throw e, {| wallet := wallet st; world := W;
                 trace := trace st ++ [GetStoredWallet n] |}).
Proof. intros H. unfold_hook. simpl. rewrite H. reflexivity. Qed.

(** X2: a connect(name) or connectLedger(address) that fails, for whatever
    reason, leaves the in-memory session as it was. *)
Theorem failed_connect_keeps_session (st : State) :
  (forall n e st', connect E n st = (Throw e, st') -> wallet st' = wallet st) /\
  (forall a e st', connectLedger E a st = (Throw e, st') -> wallet st' = wallet st).
Proof.
  split.
  - intros n e st'. unfold_hook. simpl.
    repeat next_step; intros H; inversion H; reflexivity.
  - intros a e st'. unfold_hook. simpl.
    repeat next_step; intros H; inversion H; reflexivity.
Qed.

(** X3: after a connect(name) that returned for a stored wallet which is not
    a multisig one, getConnectedWallet() returns the descriptor made of that
    name and the stored address. *)
Theorem connect_then_getConnectedWallet
  (st st' : State) (n : string) (sw : StoredWallet) (W : World) :
  getStoredWallet E n (world st) = (Ok sw, W) ->
  is_multisig sw = false ->
  connect E n st = (Ok tt, st') ->
  getConnectedWallet st' = (Ok (SingleWallet n (stored_address sw)), st').
Proof.
  intros Hs Hm. unfold_hook. simpl. rewrite Hs. simpl. rewrite Hm.
  next_step; intros H; inversion H; reflexivity.
Qed.

(** *** Further properties: the session is written by three operations only *)

(** X4: getConnectedWallet, encodeEncryptedWallet, validatePassword, create,
    createSignature, sign, signBytes and post never change the in-memory
    session, whether they return or throw. *)
Theorem session_only_written_by_connect_disconnect (st : State) :
  wallet (snd (getConnectedWallet st)) = wallet st /\
  (forall password,
     wallet (snd (encodeEncryptedWallet E password st)) = wallet st) /\
  (forall password,
     wallet (snd (validatePassword E password st)) = wallet st) /\
  (forall txOptions, wallet (snd (create E txOptions st)) = wallet st) /\
  (forall tx acc password,
     wallet (snd (createSignature E tx acc password st)) = wallet st) /\
  (forall txOptions password,
     wallet (snd (sign E txOptions password st)) = wallet st) /\
  (forall bytes password,
     wallet (snd (signBytes E bytes password st)) = wallet st) /\
  (forall txOptions password,
     wallet (snd (post E txOptions password st)) = wallet st).
Proof.
  destruct (wallet st) as [[n a|n a|a]|] eqn:Hw;
    (split; [|split; [|split; [|split; [|split; [|split; [|split]]]]]]);
    intros; unfold_hook; unfold rawKey, throw, ret; simpl;
    repeat (rewrite Hw; simpl); repeat next_step; decide_ifs;
    try reflexivity; auto.
Qed.

(** *** Further properties: signing without a device key or a password *)

(** X5: in a Ledger session whose device hands out no public key, sign() and
    post() fail with the error "Public key is not defined" after that one
    device call: no account lookup, no transaction and no broadcast is
    requested from the Chain Client. *)
Theorem ledger_without_public_key
  (st : State) (a : AccAddress) (txOptions : CreateTxOptions)
  (password : string) (W : World) :
  wallet st = Some (LedgerWallet a) ->
  ledger_getPubKey E (world st) = (Ok None, W) ->
  let st' := {| wallet := wallet st; world := W;
                trace := trace st ++ [LedgerGetPubKey] |} in
  sign E txOptions password st = (Throw DeviceError, st') /\
  post E txOptions password st = (Throw DeviceError, st') /\
  no_call_to ChainClient (calls_made (post E txOptions password) st).
Proof.
  intros Hw Hpk st'.
  assert (Hs : sign E txOptions password st = (Throw DeviceError, st')).
  { subst st'. unfold_hook. simpl. repeat (rewrite Hw; simpl).
    rewrite Hpk. reflexivity. }
  assert (Hp : post E txOptions password st = (Throw DeviceError, st')).
  { unfold post, bind, readWallet. simpl. rewrite Hw. simpl. rewrite Hs.
    reflexivity. }
  split; [exact Hs|split; [exact Hp|]].
  unfold no_call_to.
  rewrite (calls_made_app _ (post E txOptions password) st [LedgerGetPubKey]).
  - reflexivity.
  - rewrite Hp. reflexivity.
Qed.

(** X6: in a Local session, when the keystore yields no key for the
    password, post() fails with IncorrectPasswordError after that one
    keystore call: nothing is signed and nothing is broadcast. *)
Theorem post_incorrect_password_no_broadcast
  (st : State) (n : string) (a : AccAddress)
  (txOptions : CreateTxOptions) (password : string)
  (pk : option string) (W : World) :
  let p := {| params_name := Some n; params_password := password |} in
  wallet st = Some (SingleWallet n a) ->
  getDecryptedKey E p (world st) = (Ok pk, W) ->
  falsy pk = true ->
  post E txOptions password st =
    (Throw IncorrectPasswordError,
     {| wallet := wallet st; world := W;
        trace := trace st ++ [GetDecryptedKey p] |}) /\
  calls_made (post E txOptions password) st = [GetDecryptedKey p].
Proof.
  intros p Hw Hk Hf.
  assert (Hp : post E txOptions password st =
    (Throw IncorrectPasswordError,
     {| wallet := wallet st; world := W;
        trace := trace st ++ [GetDecryptedKey p] |})).
  { subst p. unfold_hook. simpl. repeat (rewrite Hw; simpl).
    rewrite Hk. simpl. rewrite rawKey_falsy by assumption. reflexivity. }
  split; [exact Hp|]. apply calls_made_app. rewrite Hp. reflexivity.
Qed.

(** X7: whatever sign() does, post() broadcasts exactly when sign() returned
    a transaction, and then that transaction: a failure of sign() is the
    failure of post() with no further call; a broadcast result that is a
    transaction error makes post() fail with its raw log, any other result
    is returned; a broadcast that throws makes post() fail the same way. *)
Theorem post_broadcasts_what_sign_returns
  (st st1 : State) (txOptions : CreateTxOptions) (password : string) :
  (forall e, sign E txOptions password st = (Throw e, st1) ->
     post E txOptions password st = (Throw e, st1)) /\
  (forall signed, sign E txOptions password st = (Ok signed, st1) ->
     let sent := {| wallet := wallet st1; world :=
                      snd (lcd_tx_broadcastSync E signed (world st1));
                    trace := trace st1 ++ [BroadcastSync signed] |} in
     post E txOptions password st =
       (match fst (lcd_tx_broadcastSync E signed (world st1)) with
        | Ok r => if isTxError r then Throw (Error (raw_log r)) else Ok r
        | Throw e => Throw e
        end, sent)).
Proof.
  split.
  - intros e Hs. unfold post, bind, readWallet. simpl.
    destruct (wallet st) as [w|] eqn:Hw.
    + rewrite Hs. reflexivity.
    + revert Hs. unfold sign, bind, readWallet, throw. simpl. rewrite Hw.
      intros Hs. inversion Hs. reflexivity.
  - intros signed Hs sent. subst sent. unfold post, bind, readWallet. simpl.
    destruct (wallet st) as [w|] eqn:Hw.
    + rewrite Hs. unfold call, throw, ret.
      destruct (lcd_tx_broadcastSync E signed (world st1)) as [[r|e] W'];
        simpl; [destruct (isTxError r)|]; reflexivity.
    + revert Hs. unfold sign, bind, readWallet, throw. simpl. rewrite Hw.
      intros Hs. discriminate Hs.
Qed.

(** *** Further properties: raw bytes, export and password check *)

(** X8: signBytes, encodeEncryptedWallet and validatePassword never reach
    the Chain Client or the hardware device, from any session and whatever
    they are given. *)
Theorem local_operations_stay_off_chain_and_device (st : State) (password : string) :
  (forall bytes,
     no_call_to ChainClient (calls_made (signBytes E bytes password) st) /\
     no_call_to HardwareDevice (calls_made (signBytes E bytes password) st)) /\
  (no_call_to ChainClient (calls_made (encodeEncryptedWallet E password) st) /\
   no_call_to HardwareDevice (calls_made (encodeEncryptedWallet E password) st)) /\
  (no_call_to ChainClient (calls_made (validatePassword E password) st) /\
   no_call_to HardwareDevice (calls_made (validatePassword E password) st)).
Proof.
  unfold no_call_to.
  destruct (wallet st) as [[n a|n a|a]|] eqn:Hw;
    (split; [intros bytes; split|split; split]);
    all_runs Hw; decide_ifs; settle_calls; reflexivity.
Qed.

(** X9: in a Local session, when the keystore yields no key for the
    password, signBytes() fails with IncorrectPasswordError and nothing has
    been asked to sign. *)
Theorem signBytes_incorrect_password
  (st : State) (n : string) (a : AccAddress) (bytes : Buffer)
  (password : string) (pk : option string) (W : World) :
  let p := {| params_name := Some n; params_password := password |} in
  wallet st = Some (SingleWallet n a) ->
  getDecryptedKey E p (world st) = (Ok pk, W) ->
  falsy pk = true ->
  signBytes E bytes password st =
    (Throw IncorrectPasswordError,
     {| wallet := wallet st; world := W;
        trace := trace st ++ [GetDecryptedKey p] |}).
Proof.
  intros p Hw Hk Hf. subst p. unfold_hook. simpl. repeat (rewrite Hw; simpl).
  rewrite Hk. simpl. rewrite rawKey_falsy by assumption. reflexivity.
Qed.

(** X10: in a Local session with a decrypted key that is not empty,
    signBytes() builds the key from the hex of it.  When the key
    constructor rejects those bytes, signBytes() fails with what the
    constructor threw and nothing has been asked to sign.  When it accepts
    them, signBytes() asks that key for one ECDSA signature over the bytes
    given; it returns the recovery id, the signature in base64 and the
    key's public key, and fails with "Signature is undefined" when the
    signer hands back no signature. *)
Theorem signBytes_local_result
  (st : State) (n : string) (a : AccAddress) (bytes : Buffer)
  (password pk : string) (W1 : World) :
  let p := {| params_name := Some n; params_password := password |} in
  let key := RawKey (Buffer_from_hex E pk) in
  wallet st = Some (SingleWallet n a) ->
  getDecryptedKey E p (world st) = (Ok (Some pk), W1) ->
  falsy (Some pk) = false ->
  (forall e,
     secp256k1_publicKeyCreate E (Buffer_from_hex E pk) = Throw e ->
     signBytes E bytes password st =
       (Throw e, {| wallet := wallet st; world := W1;
                    trace := trace st ++ [GetDecryptedKey p] |})) /\
  (forall pub sg W2,
     secp256k1_publicKeyCreate E (Buffer_from_hex E pk) = Ok pub ->
     ecdsaSign E key bytes W1 = (Ok sg, W2) ->
     signBytes E bytes password st =
       (match ecdsa_signature sg with
        | Some s => Ok {| recid := ecdsa_recid sg;
                          signature := toString_base64 E s;
                          public_key := publicKey_toAmino_value E key |}
        | None => Throw InvariantViolation
        end,
        {| wallet := wallet st; world := W2;
           trace := trace st ++ [GetDecryptedKey p; EcdsaSign key bytes] |})).
Proof.
  intros p key Hw Hk Hf. subst p key.
  destruct pk as [|c s]; [discriminate Hf|].
  split.
  - intros e Hc.
    unfold_hook. unfold rawKey, throw, ret. simpl. repeat (rewrite Hw; simpl).
    rewrite Hk. simpl. rewrite Hc. reflexivity.
  - intros pub sg W2 Hc Hs.
    unfold_hook. unfold rawKey, throw, ret. simpl. repeat (rewrite Hw; simpl).
    rewrite Hk. simpl. rewrite Hc. simpl. rewrite Hs. simpl. flat_trace.
    destruct (ecdsa_signature sg); reflexivity.
Qed.

(** X11: outside a Local session (no wallet, or a Ledger wallet)
    encodeEncryptedWallet() fails with SessionError before any call; in a
    Local session an error of the keystore's decryption is passed on with
    nothing encrypted. *)
Theorem encodeEncryptedWallet_failures (st : State) (password : string) :
  (wallet st = None ->
     encodeEncryptedWallet E password st = (Throw SessionError, st)) /\
  (forall a, wallet st = Some (LedgerWallet a) ->
     encodeEncryptedWallet E password st = (Throw SessionError, st)) /\
  (forall n a e W,
     let p := {| params_name := Some n; params_password := password |} in
     wallet st = Some (SingleWallet n a) ->
     getDecryptedKey E p (world st) = (Throw e, W) ->
     encodeEncryptedWallet E password st =
       (Throw e, {| wallet := wallet st; world := W;
                    trace := trace st ++ [GetDecryptedKey p] |})).
Proof.
  split; [|split].
  - intros Hw. unfold_hook. simpl. rewrite Hw. reflexivity.
  - intros a Hw. unfold_hook. simpl. rewrite Hw. reflexivity.
  - intros n a e W p Hw Hk. subst p. unfold_hook. simpl.
    repeat (rewrite Hw; simpl). rewrite Hk. reflexivity.
Qed.


(** *** Further properties: createSignature and the two paths of sign *)

(** X13: in a Local session createSignature() looks the account up before
    it asks for the key: when the keystore yields no key it fails with
    IncorrectPasswordError having made the account lookup and the
    decryption, and no signature has been requested. *)
Theorem createSignature_incorrect_password_after_lookup
  (st : State) (n : string) (a : AccAddress) (tx : Tx) (acc : AccAddress)
  (password : string) (ai : Account) (pk : option string) (W1 W2 : World) :
  let p := {| params_name := Some n; params_password := password |} in
  wallet st = Some (SingleWallet n a) ->
  lcd_auth_accountInfo E acc (world st) = (Ok ai, W1) ->
  getDecryptedKey E p W1 = (Ok pk, W2) ->
  falsy pk = true ->
  createSignature E tx acc password st =
    (Throw IncorrectPasswordError,
     {| wallet := wallet st; world := W2;
        trace := trace st ++ [AccountInfo acc; GetDecryptedKey p] |}).
Proof.
  intros p Hw Hai Hk Hf. subst p. unfold_hook. simpl.
  repeat (rewrite Hw; simpl). rewrite Hai. simpl. rewrite Hk. simpl.
  rewrite rawKey_falsy by assumption. simpl. flat_trace. reflexivity.
Qed.

(** X14: when the account lookup throws, createSignature() fails with that
    error in every connected session: no key is decrypted and the device is
    not contacted. *)
Theorem createSignature_lookup_failure
  (st : State) (w : Wallet) (tx : Tx) (acc : AccAddress)
  (password : string) (e : exn) (W : World) :
  wallet st = Some w ->
  lcd_auth_accountInfo E acc (world st) = (Throw e, W) ->
  createSignature E tx acc password st =
    (Throw e, {| wallet := wallet st; world := W;
                 trace := trace st ++ [AccountInfo acc] |}).
Proof.
  intros Hw Hai. unfold_hook. simpl. repeat (rewrite Hw; simpl).
  rewrite Hai. reflexivity.
Qed.

(** X15: the Ledger path of sign(), call by call: the device's public key,
    the account number and sequence of the key's wallet, an unsigned
    transaction whose one signer is the session address, and the device's
    signature of that transaction under the chain id of the hook; the
    outcome of that last call is the outcome of sign(). *)
Theorem sign_ledger_path
  (st : State) (a : AccAddress) (txOptions : CreateTxOptions)
  (password : string) (b : Buffer) (ans : AccountNumberAndSequence)
  (utx : Tx) (r : result Tx) (W1 W2 W3 W4 : World) :
  let key := LedgerKey (toString_base64 E b) in
  let options := {| opt_chainID := chainID E;
                    opt_accountNumber := account_number ans;
                    opt_sequence := sequence ans;
                    opt_signMode := SIGN_MODE_LEGACY_AMINO_JSON |} in
  wallet st = Some (LedgerWallet a) ->
  ledger_getPubKey E (world st) = (Ok (Some b), W1) ->
  lcd_wallet_accountNumberAndSequence E key W1 = (Ok ans, W2) ->
  lcd_tx_create E [a] txOptions W2 = (Ok utx, W3) ->
  signTx E key utx options W3 = (r, W4) ->
  sign E txOptions password st =
    (r, {| wallet := wallet st; world := W4;
           trace := trace st ++
                    [LedgerGetPubKey; WalletAccountNumberAndSequence key;
                     TxCreate [a] txOptions; SignTx key utx options] |}).
Proof.
  intros key options Hw Hpk Hans Hc Hs. subst key options.
  unfold_hook. simpl. repeat (rewrite Hw; simpl). rewrite Hpk. simpl.
  rewrite Hans. simpl. rewrite Hc. simpl. rewrite Hs. simpl.
  flat_trace. reflexivity.
Qed.

(** X16: the Local path of sign(), call by call: the key stored under the
    session wallet's name is decrypted with the password given and, being
    not empty, its hex is handed to the key constructor.  When the
    constructor rejects the bytes, sign() fails with what it threw and the
    Chain Client has not been called.  When it accepts them, the LCD wallet
    of that key creates and signs the transaction, and the outcome of that
    call is the outcome of sign(). *)
Theorem sign_local_path
  (st : State) (n : string) (a : AccAddress) (txOptions : CreateTxOptions)
  (password pk : string) (W1 : World) :
  let p := {| params_name := Some n; params_password := password |} in
  let key := RawKey (Buffer_from_hex E pk) in
  wallet st = Some (SingleWallet n a) ->
  getDecryptedKey E p (world st) = (Ok (Some pk), W1) ->
  falsy (Some pk) = false ->
  (forall e,
     secp256k1_publicKeyCreate E (Buffer_from_hex E pk) = Throw e ->
     sign E txOptions password st =
       (Throw e, {| wallet := wallet st; world := W1;
                    trace := trace st ++ [GetDecryptedKey p] |})) /\
  (forall pub r W2,
     secp256k1_publicKeyCreate E (Buffer_from_hex E pk) = Ok pub ->
     lcd_wallet_createAndSignTx E key txOptions W1 = (r, W2) ->
     sign E txOptions password st =
       (r, {| wallet := wallet st; world := W2;
              trace := trace st ++
                       [GetDecryptedKey p;
                        WalletCreateAndSignTx key txOptions] |})).
Proof.
  intros p key Hw Hk Hf. subst p key.
  destruct pk as [|c s]; [discriminate Hf|].
  split.
  - intros e Hc.
    unfold_hook. unfold rawKey, throw, ret. simpl. repeat (rewrite Hw; simpl).
    rewrite Hk. simpl. rewrite Hc. reflexivity.
  - intros pub r W2 Hc Hs.
    unfold_hook. unfold rawKey, throw, ret. simpl. repeat (rewrite Hw; simpl).
    rewrite Hk. simpl. rewrite Hc. simpl. rewrite Hs. simpl. flat_trace.
    reflexivity.
Qed.

End UseAuthFacts.


(** ** The properties on a run

    The stored wallet alice of the spec's scenario, a Ledger at addr2, and
    the concrete collaborators of [Sim]. *)

Section Scenario.

Import Sim.
Local Open Scope list_scope.



(** C3, the claim as stated fails: the external clear throws, and the
    in-memory session still holds alice afterwards. *)
Lemma disconnect_failed_clear_keeps_session :
  fst (clearWallet env (world st_alice_offline)) =
    Throw (Error "Storage is not available") /\
  fst (disconnect env st_alice_offline) =
    Throw (Error "Storage is not available") /\
  wallet (snd (disconnect env st_alice_offline)) =
    Some (SingleWallet "alice" "addr1").
Proof. split; [|split]; reflexivity. Qed.

Lemma disconnect_clears_when_clear_returns_witness :
  wallet (snd (disconnect env st_alice)) = None /\
  fst (disconnect env st_alice) = Ok tt /\
  wallet (snd (disconnect env st_alice_offline)) = wallet st_alice_offline.
Proof.
  destruct (disconnect_clears_when_clear_returns env st_alice) as [Hok _].
  destruct (disconnect_clears_when_clear_returns env st_alice_offline) as [_ Hthrow].
  rewrite (Hok (persist None world0) eq_refl).
  rewrite (Hthrow (Error "Storage is not available")
             (storage_down (world st_alice)) eq_refl).
  split; [|split]; reflexivity.
Defined.

Lemma connect_last_wins_witness :
  wallet st_alice = Some (SingleWallet "alice" "addr1") /\
  persisted (world st_alice) = Some (SingleWallet "alice" "addr1") /\
  connect env "team" st_alice =
    (Ok tt, {| wallet := Some (MultisigWallet "team" "addr3");
               world := persist (Some (MultisigWallet "team" "addr3")) world0;
               trace := trace st_alice ++
                        [GetStoredWallet "team";
                         StoreWallet (MultisigWallet "team" "addr3")] |}) /\
  connectLedger env "addr2" st_alice =
    (Ok tt, {| wallet := Some (LedgerWallet "addr2");
               world := persist (Some (LedgerWallet "addr2")) world0;
               trace := trace st_alice ++
                        [StoreWallet (LedgerWallet "addr2")] |}).
Proof.
  destruct (connect_last_wins env st_alice) as [Hconnect Hledger].
  split; [reflexivity|split; [reflexivity|split]].
  - apply (Hconnect "team"
             {| stored_address := "addr3"; stored_multisig := true |}
             (world st_alice));
      reflexivity.
  - apply Hledger; reflexivity.
Defined.

Lemma connectLedger_signBytes_unsupported_witness :
  let st' := snd (connectLedger env "addr2" st_alice) in
  signBytes env (list_byte_of_string "hello") "pw1" st' =
    (Throw UnsupportedOperation, st') /\
  calls_made (signBytes env (list_byte_of_string "hello") "pw1") st' = [] /\
  no_call_to VaultGateway
    (calls_made (signBytes env (list_byte_of_string "hello") "pw1") st').
Proof.
  exact (connectLedger_signBytes_unsupported env "addr2"
           (list_byte_of_string "hello") "pw1" st_alice
           (snd (connectLedger env "addr2" st_alice)) eq_refl).
Defined.

Lemma sign_incorrect_password_fail_fast_witness :
  let p := {| params_name := Some "alice"; params_password := "wrong" |} in
  sign env "send" "wrong" st_alice =
    (Throw IncorrectPasswordError,
     {| wallet := Some (SingleWallet "alice" "addr1"); world := world st_alice;
        trace := trace st_alice ++ [GetDecryptedKey p] |}) /\
  calls_made (sign env "send" "wrong") st_alice = [GetDecryptedKey p] /\
  no_call_to ChainClient (calls_made (sign env "send" "wrong") st_alice).
Proof.
  exact (sign_incorrect_password_fail_fast env st_alice "alice" "addr1"
           "send" "wrong" None (world st_alice) eq_refl eq_refl eq_refl).
Defined.

Lemma after_disconnect_session_error_witness :
  let st' := snd (disconnect env st_alice) in
  create env "send" st' = (Throw SessionError, st') /\
  createSignature env tx0 "addr1" "pw1" st' = (Throw SessionError, st') /\
  sign env "send" "pw1" st' = (Throw SessionError, st') /\
  signBytes env (list_byte_of_string "hello") "pw1" st' =
    (Throw SessionError, st') /\
  post env "send" "pw1" st' = (Throw SessionError, st').
Proof.
  destruct (after_disconnect_session_error env st_alice
              (snd (disconnect env st_alice)) eq_refl)
    as (Hcreate & Hsig & Hsign & Hbytes & Hpost).
  exact (conj (Hcreate _) (conj (Hsig _ _ _) (conj (Hsign _ _)
           (conj (Hbytes _ _) (Hpost _ _))))).
Defined.

Lemma validatePassword_one_outcome_witness :
  fst (validatePassword env "wrong" st_alice) = Ok (inr "Incorrect password") /\
  fst (validatePassword env "pw1" st_none) = Ok (inr "Incorrect password") /\
  fst (validatePassword env "pw1" st_bob) = Ok (inr "Incorrect password").
Proof.
  split; [|split].
  - apply (proj2 (validatePassword_one_outcome env "wrong" st_alice) WrongPassword).
    exists "alice", "addr1", "Incorrect password", (world st_alice).
    split; reflexivity.
  - apply (proj2 (validatePassword_one_outcome env "pw1" st_none) NoSession).
    reflexivity.
  - apply (proj2 (validatePassword_one_outcome env "pw1" st_bob) GatewayError).
    exists "bob", "addr4", (Error "Wallet does not exist"), (world st_bob).
    split; reflexivity.
Defined.

Lemma ledger_signing_is_legacy_amino_witness :
  (exists key utx o,
     In (SignTx key utx o) (calls_made (sign env "send" "") st_ledger) /\
     opt_signMode o = SIGN_MODE_LEGACY_AMINO_JSON /\
     key_owner key = HardwareDevice) /\
  (exists key doc,
     In (CreateSignatureAmino key doc)
        (calls_made (createSignature env tx0 "addr2" "") st_ledger) /\
     key_owner key = HardwareDevice) /\
  (exists key,
     In (WalletCreateAndSignTx key "send")
        (calls_made (sign env "send" "pw1") st_alice) /\
     key_owner key = KeyLibrary).
Proof.
  destruct (ledger_signing_is_legacy_amino env st_ledger "send" "" tx0 "addr2")
    as (Hsign & Hsig & _).
  destruct (ledger_signing_is_legacy_amino env st_alice "send" "pw1" tx0 "addr1")
    as (_ & _ & Hlocal).
  destruct (Hsign "addr2" eq_refl) as (Hmode & _ & Hdone).
  destruct (Hdone _ eq_refl) as (key & utx & o & _ & _ & Hin & _).
  destruct (Hsig "addr2" eq_refl) as (Hdev & Hsg).
  destruct (Hsg _ eq_refl) as (key' & doc & _ & _ & Hin' & _).
  destruct (Hlocal "alice" "addr1" eq_refl) as (_ & Hsoft).
  destruct (Hsoft _ eq_refl) as (key'' & _ & _ & Hin'' & Hlib & _).
  split; [|split].
  - exists key, utx, o. split; [exact Hin | exact (Hmode key utx o Hin)].
  - exists key', doc. split; [exact Hin' | exact (Hdev key' doc Hin')].
  - exists key''. split; [exact Hin'' | exact Hlib].
Defined.

Lemma signing_fetches_account_each_call_witness :
  chain_sequence (world st_alice) = 3%N /\
  chain_sequence (world st_alice_later) = 4%N /\
  (exists key doc,
     In (CreateSignatureAmino key doc)
        (calls_made (createSignature env tx0 "addr1" "pw1") st_alice_later) /\
     doc_account_number doc = 7%N /\ doc_sequence doc = 4%N) /\
  (exists key utx o,
     In (SignTx key utx o) (calls_made (sign env "send" "") st_ledger_later) /\
     opt_accountNumber o = 7%N /\ opt_sequence o = 4%N).
Proof.
  destruct (signing_fetches_account_each_call env st_alice_later "pw1")
    as (Hsig & _).
  destruct (signing_fetches_account_each_call env st_ledger_later "")
    as (_ & Hsign).
  destruct (Hsig (SingleWallet "alice" "addr1") tx0 "addr1" eq_refl)
    as (_ & Hdoc).
  destruct (Hdoc {| getAccountNumber := 7; getSequenceNumber := 4 |}
              (world st_alice_later) eq_refl) as (Hdoc' & _).
  destruct (Hsign "addr2" "send" (list_byte_of_string "pub")
              (world st_ledger_later) eq_refl eq_refl) as (_ & Hopt).
  destruct (Hopt {| account_number := 7; sequence := 4 |}
              (world st_ledger_later) eq_refl) as (Hopt' & _).
  split; [reflexivity|split; [reflexivity|split]].
  - exists (RawKey (from_hex (entry_key alice))).
    exists {| doc_chain_id := "columbus-5"; doc_account_number := 7;
              doc_sequence := 4; doc_auth_info := "auth";
              doc_tx_body := "send" |}.
    assert (Hin : In (CreateSignatureAmino (RawKey (from_hex (entry_key alice)))
                        {| doc_chain_id := "columbus-5"; doc_account_number := 7;
                           doc_sequence := 4; doc_auth_info := "auth";
                           doc_tx_body := "send" |})
                     (calls_made (createSignature env tx0 "addr1" "pw1")
                        st_alice_later)).
    { right; right; left; reflexivity. }
    split; [exact Hin|].
    exact (Hdoc' _ _ Hin).
  - exists (LedgerKey "pub").
    exists {| auth_info := "addr2"; body := "send"; signatures := [] |}.
    exists {| opt_chainID := "columbus-5"; opt_accountNumber := 7;
              opt_sequence := 4; opt_signMode := SIGN_MODE_LEGACY_AMINO_JSON |}.
    assert (Hin : In (SignTx (LedgerKey "pub")
                        {| auth_info := "addr2"; body := "send"; signatures := [] |}
                        {| opt_chainID := "columbus-5"; opt_accountNumber := 7;
                           opt_sequence := 4;
                           opt_signMode := SIGN_MODE_LEGACY_AMINO_JSON |})
                     (calls_made (sign env "send" "") st_ledger_later)).
    { right; right; right; left; reflexivity. }
    split; [exact Hin|].
    exact (Hopt' _ _ _ Hin).
Defined.

(** C2, the defect on a run: alice is connected, the keystore yields no key
    for the password, and encodeEncryptedWallet() returns a bundle whose
    encrypted_key was made from that absent key, where sign() on the same
    input fails with IncorrectPasswordError. *)
Theorem encodeEncryptedWallet_wrong_password_returns_bundle :
  let p := {| params_name := Some "alice"; params_password := "wrong" |} in
  getDecryptedKey env p (world st_alice) = (Ok None, world st_alice) /\
  encodeEncryptedWallet env "wrong" st_alice =
    (Ok "base64:{alice,addr1,enc(undefined,wrong)}",
     {| wallet := Some (SingleWallet "alice" "addr1"); world := world st_alice;
        trace := trace st_alice ++ [GetDecryptedKey p; Encrypt None "wrong"] |}) /\
  fst (sign env "send" "wrong" st_alice) = Throw IncorrectPasswordError.
Proof.
  split; [reflexivity|split; [|reflexivity]].
  exact (encodeEncryptedWallet_no_key env st_alice "alice" "addr1" "wrong"
           None (world st_alice) (world st_alice) "enc(undefined,wrong)"
           eq_refl eq_refl eq_refl).
Qed.

(** *** Further properties on a run *)

Lemma connect_unknown_wallet_witness :
  connect env "carol" st_alice =
    (Throw (Error "Wallet does not exist"),
     {| wallet := Some (SingleWallet "alice" "addr1"); world := world st_alice;
        trace := trace st_alice ++ [GetStoredWallet "carol"] |}).
Proof.
  exact (connect_unknown_wallet env st_alice "carol"
           (Error "Wallet does not exist") (world st_alice) eq_refl).
Defined.

Lemma failed_connect_keeps_session_witness :
  wallet (snd (connect env "carol" st_alice)) = wallet st_alice /\
  wallet (snd (connectLedger env "addr2" st_alice_offline)) =
    wallet st_alice_offline.
Proof.
  destruct (failed_connect_keeps_session env st_alice) as [Hconnect _].
  destruct (failed_connect_keeps_session env st_alice_offline) as [_ Hledger].
  split.
  - exact (Hconnect "carol" (Error "Wallet does not exist")
             (snd (connect env "carol" st_alice)) eq_refl).
  - exact (Hledger "addr2" (Error "Storage is not available")
             (snd (connectLedger env "addr2" st_alice_offline)) eq_refl).
Defined.

Lemma connect_then_getConnectedWallet_witness :
  getConnectedWallet st_alice = (Ok (SingleWallet "alice" "addr1"), st_alice).
Proof.
  exact (connect_then_getConnectedWallet env st_none st_alice "alice"
           {| stored_address := "addr1"; stored_multisig := false |}
           (world st_none) eq_refl eq_refl eq_refl).
Defined.

Lemma ledger_without_public_key_witness :
  let st' := {| wallet := wallet st_ledger_unplugged;
                world := world st_ledger_unplugged;
                trace := trace st_ledger_unplugged ++ [LedgerGetPubKey] |} in
  sign env "send" "" st_ledger_unplugged = (Throw DeviceError, st') /\
  post env "send" "" st_ledger_unplugged = (Throw DeviceError, st') /\
  no_call_to ChainClient (calls_made (post env "send" "") st_ledger_unplugged).
Proof.
  exact (ledger_without_public_key env st_ledger_unplugged "addr2" "send" ""
           (world st_ledger_unplugged) eq_refl eq_refl).
Defined.

Lemma post_incorrect_password_no_broadcast_witness :
  let p := {| params_name := Some "alice"; params_password := "wrong" |} in
  post env "send" "wrong" st_alice =
    (Throw IncorrectPasswordError,
     {| wallet := wallet st_alice; world := world st_alice;
        trace := trace st_alice ++ [GetDecryptedKey p] |}) /\
  calls_made (post env "send" "wrong") st_alice = [GetDecryptedKey p].
Proof.
  exact (post_incorrect_password_no_broadcast env st_alice "alice" "addr1"
           "send" "wrong" None (world st_alice) eq_refl eq_refl eq_refl).
Defined.

Lemma post_broadcasts_what_sign_returns_witness :
  fst (post env "send" "wrong" st_alice) = Throw IncorrectPasswordError /\
  fst (post env "send" "pw1" st_alice) =
    Ok {| txhash := "hash"; code := None; raw_log := "" |} /\
  fst (post env_faulty "send" "pw1" st_alice) =
    Throw (Error "insufficient funds").
Proof.
  destruct (post_broadcasts_what_sign_returns env st_alice
              (snd (sign env "send" "wrong" st_alice)) "send" "wrong")
    as [Hfail _].
  destruct (post_broadcasts_what_sign_returns env st_alice
              (snd (sign env "send" "pw1" st_alice)) "send" "pw1")
    as [_ Hsent].
  destruct (post_broadcasts_what_sign_returns env_faulty st_alice
              (snd (sign env_faulty "send" "pw1" st_alice)) "send" "pw1")
    as [_ Hrejected].
  rewrite (Hfail IncorrectPasswordError eq_refl).
  rewrite (Hsent _ eq_refl).
  rewrite (Hrejected _ eq_refl).
  split; [|split]; reflexivity.
Defined.

Lemma signBytes_incorrect_password_witness :
  let p := {| params_name := Some "alice"; params_password := "wrong" |} in
  signBytes env (list_byte_of_string "hello") "wrong" st_alice =
    (Throw IncorrectPasswordError,
     {| wallet := wallet st_alice; world := world st_alice;
        trace := trace st_alice ++ [GetDecryptedKey p] |}).
Proof.
  exact (signBytes_incorrect_password env st_alice "alice" "addr1"
           (list_byte_of_string "hello") "wrong" None (world st_alice)
           eq_refl eq_refl eq_refl).
Defined.

Lemma signBytes_local_result_witness :
  let key := RawKey (from_hex (entry_key alice)) in
  signBytes env (list_byte_of_string "hello") "pw1" st_alice =
    (Ok {| recid := 0; signature := "hello";
           public_key := Some ("raw:" ++ entry_key alice)%string |},
     {| wallet := wallet st_alice; world := world st_alice;
        trace := trace st_alice ++
                 [GetDecryptedKey
                    {| params_name := Some "alice"; params_password := "pw1" |};
                  EcdsaSign key (list_byte_of_string "hello")] |}) /\
  signBytes env (list_byte_of_string "hello") "pw5" st_dave =
    (Throw (Error "Expected private key to be an Uint8Array with length 32"),
     {| wallet := wallet st_dave; world := world st_dave;
        trace := trace st_dave ++
                 [GetDecryptedKey
                    {| params_name := Some "dave"; params_password := "pw5" |}] |}).
Proof.
  destruct (signBytes_local_result env st_alice "alice" "addr1"
              (list_byte_of_string "hello") "pw1" (entry_key alice)
              (world st_alice) eq_refl eq_refl eq_refl) as [_ Hvalid].
  destruct (signBytes_local_result env st_dave "dave" "addr5"
              (list_byte_of_string "hello") "pw5" "beef"
              (world st_dave) eq_refl eq_refl eq_refl) as [Hinvalid _].
  split.
  - exact (Hvalid _ {| ecdsa_signature := Some (list_byte_of_string "hello");
                       ecdsa_recid := 0 |} (world st_alice) eq_refl eq_refl).
  - exact (Hinvalid _ eq_refl).
Defined.

Lemma encodeEncryptedWallet_failures_witness :
  encodeEncryptedWallet env "pw1" st_none = (Throw SessionError, st_none) /\
  encodeEncryptedWallet env "pw1" st_ledger = (Throw SessionError, st_ledger) /\
  fst (encodeEncryptedWallet env "pw1" st_bob) =
    Throw (Error "Wallet does not exist").
Proof.
  destruct (encodeEncryptedWallet_failures env st_none "pw1") as (Hnone & _).
  destruct (encodeEncryptedWallet_failures env st_ledger "pw1") as (_ & Hledger & _).
  destruct (encodeEncryptedWallet_failures env st_bob "pw1") as (_ & _ & Hthrow).
  rewrite (Hthrow "bob" "addr4" (Error "Wallet does not exist") (world st_bob)
             eq_refl eq_refl).
  split; [exact (Hnone eq_refl)|split; [exact (Hledger "addr2" eq_refl)|]].
  reflexivity.
Defined.


Lemma createSignature_incorrect_password_after_lookup_witness :
  let p := {| params_name := Some "alice"; params_password := "wrong" |} in
  createSignature env tx0 "addr1" "wrong" st_alice =
    (Throw IncorrectPasswordError,
     {| wallet := wallet st_alice; world := world st_alice;
        trace := trace st_alice ++ [AccountInfo "addr1"; GetDecryptedKey p] |}).
Proof.
  exact (createSignature_incorrect_password_after_lookup env st_alice
           "alice" "addr1" tx0 "addr1" "wrong"
           {| getAccountNumber := 7; getSequenceNumber := 3 |} None
           (world st_alice) (world st_alice) eq_refl eq_refl eq_refl eq_refl).
Defined.

Lemma createSignature_lookup_failure_witness :
  createSignature env_faulty tx0 "addr1" "pw1" st_alice =
    (Throw (Error "Network Error"),
     {| wallet := wallet st_alice; world := world st_alice;
        trace := trace st_alice ++ [AccountInfo "addr1"] |}).
Proof.
  exact (createSignature_lookup_failure env_faulty st_alice
           (SingleWallet "alice" "addr1") tx0 "addr1" "pw1"
           (Error "Network Error") (world st_alice) eq_refl eq_refl).
Defined.

Lemma sign_ledger_path_witness :
  let key := LedgerKey "pub" in
  let utx := {| auth_info := "addr2"; body := "send"; signatures := [] |} in
  let options := {| opt_chainID := "columbus-5"; opt_accountNumber := 7;
                    opt_sequence := 3;
                    opt_signMode := SIGN_MODE_LEGACY_AMINO_JSON |} in
  sign env "send" "" st_ledger =
    (Ok {| auth_info := "addr2"; body := "send";
           signatures := ["legacy-amino-json(ledger:pub)"] |},
     {| wallet := wallet st_ledger; world := world st_ledger;
        trace := trace st_ledger ++
                 [LedgerGetPubKey; WalletAccountNumberAndSequence key;
                  TxCreate ["addr2"] "send"; SignTx key utx options] |}).
Proof.
  exact (sign_ledger_path env st_ledger "addr2" "send" ""
           (list_byte_of_string "pub")
           {| account_number := 7; sequence := 3 |}
           {| auth_info := "addr2"; body := "send"; signatures := [] |}
           (Ok {| auth_info := "addr2"; body := "send";
                  signatures := ["legacy-amino-json(ledger:pub)"] |})
           (world st_ledger) (world st_ledger) (world st_ledger)
           (world st_ledger) eq_refl eq_refl eq_refl eq_refl eq_refl).
Defined.

Lemma sign_local_path_witness :
  let key := RawKey (from_hex (entry_key alice)) in
  sign env "send" "pw1" st_alice =
    (Ok {| auth_info := "direct"; body := "send";
           signatures := [("direct(raw:" ++ entry_key alice ++ ")")%string] |},
     {| wallet := wallet st_alice; world := world st_alice;
        trace := trace st_alice ++
                 [GetDecryptedKey
                    {| params_name := Some "alice"; params_password := "pw1" |};
                  WalletCreateAndSignTx key "send"] |}) /\
  sign env "send" "pw5" st_dave =
    (Throw (Error "Expected private key to be an Uint8Array with length 32"),
     {| wallet := wallet st_dave; world := world st_dave;
        trace := trace st_dave ++
                 [GetDecryptedKey
                    {| params_name := Some "dave"; params_password := "pw5" |}] |}).
Proof.
  destruct (sign_local_path env st_alice "alice" "addr1" "send" "pw1"
              (entry_key alice) (world st_alice) eq_refl eq_refl eq_refl)
    as [_ Hvalid].
  destruct (sign_local_path env st_dave "dave" "addr5" "send" "pw5" "beef"
              (world st_dave) eq_refl eq_refl eq_refl) as [Hinvalid _].
  split.
  - exact (Hvalid _ _ (world st_alice) eq_refl eq_refl).
  - exact (Hinvalid _ eq_refl).
Defined.

End Scenario.
